(** * healthyskin: the decision pipeline of [server/app.py] and
      [server/ml/peptide_flags.py]

    A shallow embedding of the peptide flag resolver, the safety
    calibrator, the PIH risk proxy and the recommendation rules, with the
    properties the specification states about them.

    Conventions of the embedding:
    - a Python [float] is a binary64 value, Rocq's primitive [float];
      comparisons are the IEEE ones ([PrimFloat.ltb], [PrimFloat.leb]),
      so a NaN compares false with everything, as in Python;
    - a Python [int] is a [Z];
    - a Python [str] is a [string]; the embedding covers ASCII text
      (bytes above 127 are neither whitespace nor cased);
    - a Python [dict] used as a map is a [gmap]; the dicts with a fixed
      set of literal keys are records;
    - the module-level [PEPTIDE_KB] is process state: the code that reads
      it is written in a small state monad over that store;
    - a raised exception is a constructor of [py_result]. *)

From Stdlib Require Import Floats ZArith Ascii String Sorted.
From stdpp Require Import gmap strings list fin_maps.

Set Warnings "-inexact-float".
Local Open Scope string_scope.
Local Open Scope Z_scope.

(** ** Python strings *)

Module Str.

(** [str.isspace] on the ASCII range: TAB..CR, FS..US and the space. *)
Definition is_space (c : ascii) : bool :=
  let n := N_of_ascii c in
  ((9 <=? n) && (n <=? 13) || (28 <=? n) && (n <=? 32))%N.

(** [str.lower] on one ASCII character. *)
Definition lower_char (c : ascii) : ascii :=
  let n := N_of_ascii c in
  if ((65 <=? n) && (n <=? 90))%N then ascii_of_N (n + 32) else c.

Fixpoint lower (s : string) : string :=
  match s with
  | EmptyString => EmptyString
  | String c r => String (lower_char c) (lower r)
  end.

Fixpoint lstrip (s : string) : string :=
  match s with
  | EmptyString => EmptyString
  | String c r => if is_space c then lstrip r else s
  end.

Fixpoint rstrip (s : string) : string :=
  match s with
  | EmptyString => EmptyString
  | String c r =>
      match rstrip r with
      | EmptyString => if is_space c then EmptyString else String c EmptyString
      | r' => String c r'
      end
  end.

(** [s.strip()] *)
Definition strip (s : string) : string := rstrip (lstrip s).

(** [s.split(sep)] for a one-character separator: never the empty list,
    [''.split(',')] is [['']]. *)
Fixpoint split (sep : ascii) (s : string) : list string :=
  match s with
  | EmptyString => [EmptyString]
  | String c r =>
      if Ascii.eqb c sep then EmptyString :: split sep r
      else match split sep r with
           | [] => [String c EmptyString]
           | h :: t => String c h :: t
           end
  end.

(** Truth value of a string: non-empty. *)
Definition truthy (s : string) : bool :=
  match s with EmptyString => false | _ => true end.

End Str.

(** ** server/ml/peptide_flags.py *)

(** The dataclass [PeptideInfo]. *)
Record PeptideInfo := mkPeptideInfo {
  name : string;
  lipidated : bool;
  net_charge : string;
  is_skp : bool;
  approx_mw : Z
}.

(** The module-level dictionary, as written in the source. *)
Definition PEPTIDE_KB : gmap string PeptideInfo :=
  <["td-1" := mkPeptideInfo "td-1" false "neutral" true 1200]>
  (<["matrixyl-3000" := mkPeptideInfo "matrixyl-3000" true "neutral" false 1000]>
  (<["acetyl-hexapeptide-8" := mkPeptideInfo "acetyl-hexapeptide-8" false "neutral" false 889]>
  (<["ghk-cu" := mkPeptideInfo "ghk-cu" false "positive" false 403]>
  (<["palmitoyl-pentapeptide-4" :=
       mkPeptideInfo "palmitoyl-pentapeptide-4" true "neutral" false 802]> ∅)))).

(** A value stored under ["charged"]: a [bool] for a known peptide, the
    string ["unknown"] otherwise. *)
Inductive py_value :=
| PyBool (b : bool)
| PyStr (s : string).

(** The per-peptide dict, whose six keys are literals of the source. *)
Record feature_flags := mkFlags {
  flag_lipidated : bool;
  flag_charged : py_value;
  flag_net_charge : string;
  flag_is_skp : bool;
  flag_over_500_Da : bool;
  flag_approx_mw : Z
}.

(** The [if info:] branch. *)
Definition known_flags (info : PeptideInfo) : feature_flags :=
  {| flag_lipidated := lipidated info;
     flag_charged :=
       PyBool (String.eqb (net_charge info) "positive"
               || String.eqb (net_charge info) "negative");
     flag_net_charge := net_charge info;
     flag_is_skp := is_skp info;
     flag_over_500_Da := (500 <? approx_mw info)%Z;
     flag_approx_mw := approx_mw info |}.

(** The [else] branch. *)
Definition cautious_default : feature_flags :=
  {| flag_lipidated := false;
     flag_charged := PyStr "unknown";
     flag_net_charge := "unknown";
     flag_is_skp := false;
     flag_over_500_Da := true;
     flag_approx_mw := 600 |}.

(** *** The process state and its monad *)

Module Proc.

(** Computations over the store holding [PEPTIDE_KB]. *)
Definition M (A : Type) : Type :=
  gmap string PeptideInfo → A * gmap string PeptideInfo.

Definition ret {A} (a : A) : M A := λ kb, (a, kb).

Definition bind {A B} (m : M A) (k : A → M B) : M B :=
  λ kb, let '(a, kb') := m kb in k a kb'.

(** [PEPTIDE_KB.get(raw)] *)
Definition kb_get (raw : string) : M (option PeptideInfo) :=
  λ kb, (kb !! raw, kb).

Definition run {A} (m : M A) (kb : gmap string PeptideInfo) : A := fst (m kb).
Definition final {A} (m : M A) (kb : gmap string PeptideInfo)
  : gmap string PeptideInfo := snd (m kb).

End Proc.

Notation "x <~ m ;; k" := (Proc.bind m (λ x, k))
  (at level 100, m at next level, right associativity).

(** [names = [s.strip().lower() for s in csv_names.split(",") if s.strip()]] *)
Definition peptide_names (csv_names : string) : list string :=
  map (λ s, Str.lower (Str.strip s))
      (List.filter (λ s, Str.truthy (Str.strip s)) (Str.split "," csv_names)).

(** The entry written for [raw] given the result of the lookup. *)
Definition entry_for (info : option PeptideInfo) : feature_flags :=
  match info with
  | Some i => known_flags i
  | None => cautious_default
  end.

(** The [for raw in names] loop, writing into [out]. *)
Fixpoint flags_loop (names : list string) (out : gmap string feature_flags)
  : Proc.M (gmap string feature_flags) :=
  match names with
  | [] => Proc.ret out
  | raw :: rest =>
      info <~ Proc.kb_get raw ;;
      flags_loop rest (<[raw := entry_for info]> out)
  end.

Definition flags_from_list (csv_names : string) : Proc.M (gmap string feature_flags) :=
  flags_loop (peptide_names csv_names) ∅.

(** ** Python numbers *)

Inductive py_exception := OverflowError.

(** The outcome of a call: a value, or an exception that propagates. *)
Inductive py_result (A : Type) :=
| Returns (a : A)
| Raises (e : py_exception).
Arguments Returns {A} a.
Arguments Raises {A} e.

Module PyFloat.

(** The built-in [min(a, b)] on two arguments: the first one is kept
    unless the second is smaller. *)
Definition min2 (a b : float) : float := if (b <? a)%float then b else a.

(** The built-in [max(a, b)]: the first one is kept unless the second
    is greater. *)
Definition max2 (a b : float) : float := if (a <? b)%float then b else a.

(** The conversion of an [int] operand of a float operation: the
    nearest binary64 value, ties to even, and [OverflowError] when that
    value is not finite. *)
Definition of_int (z : Z) : py_result float :=
  let f := SF2Prim (binary_normalize prec emax z 0 false) in
  if is_infinity f then Raises OverflowError else Returns f.

(** [np.clip(x, lo, hi)] on a float scalar: [minimum(maximum(x, lo), hi)]
    where a NaN [x] is returned as it is. *)
Definition np_clip (x lo hi : float) : float :=
  let m := if is_nan x then x else if (lo <? x)%float then x else lo in
  if is_nan m then m else if (m <? hi)%float then m else hi.

(** [lo <= x <= hi] *)
Definition between (lo hi x : float) : Prop :=
  (lo <=? x)%float = true ∧ (x <=? hi)%float = true.

End PyFloat.

(** ** server/app.py *)

(** [pih_risk_proxy(mi, ei, fitz)] *)
Definition pih_risk_proxy (mi ei : float) (fitz : Z) : py_result float :=
  match PyFloat.of_int (fitz - 1) with
  | Raises e => Raises e
  | Returns k =>
      let base := (0.4 * mi + 0.2 * ei + 10.0 * k)%float in
      Returns (PyFloat.max2 0.0%float (PyFloat.min2 100.0%float base))
  end.

(** *** Safety calibration *)

Record safety_flag := mkSafetyFlag {
  code : string;
  message : string;
  severity : string
}.

(** The dict [params]. [spf_prompt] holds the ints 0 and 1. *)
Record safety_params := mkSafetyParams {
  mn_length_mm : float;
  spf_prompt : Z
}.

Definition LOWER_MN : safety_flag :=
  mkSafetyFlag "LOWER_MN"
    "Higher pigmentation index / Fitzpatrick — use ≤0.2 mm microneedles."
    "caution".

Definition SITE_LIMIT : safety_flag :=
  mkSafetyFlag "SITE_LIMIT" "Peri-orbital area: keep microneedles ≤0.2 mm." "info".

Definition SPF : safety_flag :=
  mkSafetyFlag "SPF" "Strict daily SPF recommended to reduce PIH risk." "info".

(** The two locals of [safety_calibration]: [flags] and [params]. *)
Record calibration := mkCalibration {
  flags : list safety_flag;
  params : safety_params
}.

(** [flags = []; params = {"mn_length_mm": 0.4, "spf_prompt": 0}] *)
Definition calibration_init : calibration :=
  mkCalibration [] (mkSafetyParams 0.4%float 0).

(** [if mi > 35.0 or fitz >= 4: ...] *)
Definition rule_pigmentation (mi : float) (fitz : Z) (st : calibration) : calibration :=
  if (35.0 <? mi)%float || (4 <=? fitz) then
    mkCalibration (flags st ++ [LOWER_MN]) (mkSafetyParams 0.2%float 1)
  else st.

(** [if site.lower() in ("eye", "periorbital"): ...] *)
Definition rule_site (site : string) (st : calibration) : calibration :=
  if String.eqb (Str.lower site) "eye" || String.eqb (Str.lower site) "periorbital" then
    mkCalibration (flags st ++ [SITE_LIMIT])
      (mkSafetyParams (PyFloat.min2 (mn_length_mm (params st)) 0.2%float)
                      (spf_prompt (params st)))
  else st.

(** [if params["spf_prompt"]: ...] *)
Definition rule_spf (st : calibration) : calibration :=
  if negb (spf_prompt (params st) =? 0) then
    mkCalibration (flags st ++ [SPF]) (params st)
  else st.

(** [safety_calibration(mi, fitz, site)], returning [(flags, params)]. *)
Definition safety_calibration (mi : float) (fitz : Z) (site : string)
  : list safety_flag * safety_params :=
  let st := rule_spf (rule_site site (rule_pigmentation mi fitz calibration_init)) in
  (flags st, params st).

(** *** Recommendations *)

(** The ["parameters"] dict of a recommendation, one shape per category. *)
Inductive rec_parameters :=
| MicroneedleParameters (length_mm_suggested : float) (frequency : string)
| IontophoresisParameters (duration_min sessions_per_week : Z)
| VesicularParameters (daily_use : bool)
| HydrationParameters (occlusion_nights_per_week : Z).

Record recommendation := mkRecommendation {
  category : string;
  rationale : string;
  parameters : rec_parameters;
  priority : Z
}.

(** [pep_flags.values()] *)
Definition dict_values (pep_flags : gmap string feature_flags) : list feature_flags :=
  (map_to_list pep_flags).*2.

(** [v is True] *)
Definition is_True (v : py_value) : bool :=
  match v with PyBool true => true | _ => false end.

(** [any(p.get("over_500_Da", True) for p in pep_flags.values())]; the key
    is present in every entry [flags_from_list] writes. *)
Definition any_over500 (pep_flags : gmap string feature_flags) : bool :=
  existsb flag_over_500_Da (dict_values pep_flags).

(** [any(p.get("charged") is True for p in pep_flags.values())] *)
Definition any_charged (pep_flags : gmap string feature_flags) : bool :=
  existsb (λ p, is_True (flag_charged p)) (dict_values pep_flags).

(** [any(p.get("lipidated") for p in pep_flags.values())] *)
Definition any_lipidated (pep_flags : gmap string feature_flags) : bool :=
  existsb flag_lipidated (dict_values pep_flags).

Definition rec_microneedle (params : safety_params) : recommendation :=
  mkRecommendation "Microneedle"
    "Bypass stratum corneum for larger peptides (>500 Da)."
    (MicroneedleParameters (mn_length_mm params) "1x/week") 1.

Definition rec_iontophoresis : recommendation :=
  mkRecommendation "Iontophoresis" "Drive charged peptides with mild current."
    (IontophoresisParameters 15 1) 2.

Definition rec_vesicular : recommendation :=
  mkRecommendation "Vesicular Carrier"
    "Improve partitioning using ethosomes/niosomes/transferosomes."
    (VesicularParameters true) 3.

Definition rec_hydration : recommendation :=
  mkRecommendation "Hydration & Occlusion"
    "Increase SC water content to loosen lipid order slightly."
    (HydrationParameters 2) 4.

(** [recs.append(r)] under [if c:] *)
Definition append_if (c : bool) (r : recommendation) (recs : list recommendation)
  : list recommendation :=
  if c then recs ++ [r] else recs.

(** Lines 92-128 of [analyze]: the aggregates and the four rules that
    fill [recs]. *)
Definition recommendations (pep_flags : gmap string feature_flags) (tr : float)
    (params : safety_params) : list recommendation :=
  let over := any_over500 pep_flags in
  let charged := any_charged pep_flags in
  let lipid := any_lipidated pep_flags in
  let recs := [] in
  let recs := append_if over (rec_microneedle params) recs in
  let recs := append_if charged rec_iontophoresis recs in
  let recs := append_if (over || negb lipid) rec_vesicular recs in
  let recs := append_if (8.0 <? tr)%float rec_hydration recs in
  recs.

(** *** Image metrics and the endpoint *)

(** [np.array(pil)]: a height x width x 3 array of 8-bit samples. *)
Record raster := mkRaster {
  height : nat;
  width : nat;
  pixels : list (Z * Z * Z)
}.




Section Endpoint.

(** What scikit-image, NumPy and the built-in [round] compute lies
    outside the repository; the embedding takes the scalars they hand
    back as given. *)

(** [rgb2lab(arr / 255.0)[..., 0].mean()] *)
Variable lab_lightness_mean : raster → float.
(** [100.0 * (ratio.mean() - 1.0)], [ratio] the float32 array
    [(r + 1.0) / (g + 1.0)] *)
Variable erythema_ratio_scaled : raster → float.
(** [texture_roughness(arr)], through [skimage.filters.sobel] *)
Variable texture_roughness : raster → float.
(** [brightness_mean(arr)] *)
Variable brightness_mean : raster → float.
(** [round(x, 2)] *)
Variable round2 : float → float.

(** [melanin_index_rgb(arr)] *)
Definition melanin_index_rgb (arr : raster) : float :=
  PyFloat.np_clip (100.0 - lab_lightness_mean arr)%float 0.0%float 100.0%float.



End Endpoint.

(** ** Vocabulary of the statements *)


(** Some flag of the sequence carries the code [c]. *)
Definition has_code (c : string) (fl : list safety_flag) : bool :=
  existsb (λ f, String.eqb (code f) c) fl.

(** The ceiling after each of the three rules of one evaluation, the
    initial one first. *)
Definition ceiling_trace (mi : float) (fitz : Z) (site : string) : list float :=
  let s0 := calibration_init in
  let s1 := rule_pigmentation mi fitz s0 in
  let s2 := rule_site site s1 in
  let s3 := rule_spf s2 in
  map (λ s, mn_length_mm (params s)) [s0; s1; s2; s3].

(** The fixed priority of each category. *)
Definition category_priority : list (string * Z) :=
  [("Microneedle", 1); ("Iontophoresis", 2);
   ("Vesicular Carrier", 3); ("Hydration & Occlusion", 4)].

(** [of_int] returns on every integer of the list. *)
Definition all_convert (zs : list Z) : bool :=
  forallb (λ z, match PyFloat.of_int z with Returns _ => true | Raises _ => false end) zs.

(** The dict [flags_loop] leaves, as a fold over the names. *)
Definition written (kb : gmap string PeptideInfo) (out : gmap string feature_flags)
    (names : list string) : gmap string feature_flags :=
  foldl (λ o raw, <[raw := entry_for (kb !! raw)]> o) out names.

(** Two calls of the resolver, one after the other, in one process. *)
Definition resolve_twice (csv_names : string)
  : Proc.M (gmap string feature_flags * gmap string feature_flags) :=
  first <~ flags_from_list csv_names ;;
  second <~ flags_from_list csv_names ;;
  Proc.ret (first, second).


(** The guard of the first rule of [safety_calibration]. *)
Definition pigmentation_guard (mi : float) (fitz : Z) : bool :=
  (35.0 <? mi)%float || (4 <=? fitz).

(** The guard of its second rule. *)
Definition site_guard (site : string) : bool :=
  String.eqb (Str.lower site) "eye" || String.eqb (Str.lower site) "periorbital".

(** ** The resolver *)

Section Resolver.

Implicit Types (kb : gmap string PeptideInfo) (out : gmap string feature_flags).
Implicit Types (names : list string) (k s csv : string).

Lemma flags_loop_run names out kb :
  flags_loop names out kb = (written kb out names, kb).
Proof.
  revert out. induction names as [|raw rest IH]; intros out; [done|].
  cbn. unfold Proc.bind, Proc.kb_get. apply IH.
Qed.

Lemma flags_from_list_run csv kb :
  flags_from_list csv kb = (written kb ∅ (peptide_names csv), kb).
Proof. apply flags_loop_run. Qed.

(** The resolver reads the store and leaves it as it was. *)
Lemma flags_from_list_final csv kb : Proc.final (flags_from_list csv) kb = kb.
Proof. unfold Proc.final. by rewrite flags_from_list_run. Qed.

Lemma lookup_written kb names out k :
  written kb out names !! k =
    if decide (k ∈ names) then Some (entry_for (kb !! k)) else out !! k.
Proof.
  revert out. induction names as [|raw rest IH]; intros out; cbn.
  - destruct (decide (k ∈ [])) as [Hin|_]; [by apply elem_of_nil in Hin|done].
  - fold (written kb (<[raw:=entry_for (kb !! raw)]> out) rest). rewrite IH.
    destruct (decide (k ∈ rest)) as [Hr|Hr].
    + rewrite decide_True; [done|by right].
    + destruct (decide (raw = k)) as [->|Hne].
      * rewrite lookup_insert_eq, decide_True; [done|by left].
      * rewrite lookup_insert_ne, decide_False; [done| |done].
        rewrite elem_of_cons. intros [->|Hin]; [by apply Hne|by apply Hr].
Qed.







End Resolver.




(** C9. Two calls of the resolver on the same input, one after the other,
    return the same output, and the store holding the knowledge base is
    after both what it was before. *)
Theorem resolver_is_repeatable (kb : gmap string PeptideInfo) (csv : string) :
  let '(first, second, kb') := resolve_twice csv kb in
  first = second ∧ kb' = kb ∧ first = Proc.run (flags_from_list csv) kb.
Proof.
  unfold resolve_twice, Proc.bind, Proc.ret, Proc.run.
  rewrite !flags_from_list_run. done.
Qed.

(** ** Safety calibration *)

Section Calibration.

Variables (mi : float) (fitz : Z) (site : string).

(** The three guards are the only way the inputs enter the result. *)
Ltac by_guards :=
  unfold safety_calibration, ceiling_trace, rule_spf, rule_site, rule_pigmentation;
  destruct ((35.0 <? mi)%float || (4 <=? fitz));
  destruct (String.eqb (Str.lower site) "eye"
            || String.eqb (Str.lower site) "periorbital");
  vm_compute.

(** C1. The ceiling starts at 0.4 mm, no rule of an evaluation raises
    it, and the ceiling returned is at most 0.4 mm. *)
Theorem ceiling_never_increases :
  (∃ c1 c2 c3,
      ceiling_trace mi fitz site = [0.4%float; c1; c2; c3]
      ∧ (c1 <=? 0.4)%float = true
      ∧ (c2 <=? c1)%float = true
      ∧ (c3 <=? c2)%float = true
      ∧ mn_length_mm (snd (safety_calibration mi fitz site)) = c3)
  ∧ (mn_length_mm (snd (safety_calibration mi fitz site)) <=? 0.4)%float = true.
Proof.
  by_guards; (split; [do 3 eexists; split_and!; reflexivity | reflexivity]).
Qed.

(** C10. The SPF flag is present exactly when the LOWER_MN flag is, and
    when it is present it is the last flag of the sequence. *)
Theorem spf_flag_follows_lower_mn :
  let fl := fst (safety_calibration mi fitz site) in
  has_code "SPF" fl = has_code "LOWER_MN" fl
  ∧ (has_code "SPF" fl = true → last fl = Some SPF)
  ∧ (has_code "SPF" fl = true ↔ (35.0 <? mi)%float || (4 <=? fitz) = true).
Proof.
  cbn zeta. by_guards; split_and!; try split; try reflexivity; try discriminate.
Qed.

End Calibration.

(** C4. Melanin index 40.0, Fitzpatrick 2, site "periorbital": the flags
    are LOWER_MN (caution), SITE_LIMIT (info), SPF (info) in this order,
    the ceiling is 0.2 mm and the SPF prompt is set. *)
Theorem scenario_periorbital_high_melanin :
  let '(fl, p) := safety_calibration 40.0%float 2 "periorbital" in
  fl = [LOWER_MN; SITE_LIMIT; SPF]
  ∧ map (λ f, (code f, severity f)) fl
    = [("LOWER_MN", "caution"); ("SITE_LIMIT", "info"); ("SPF", "info")]
  ∧ mn_length_mm p = 0.2%float
  ∧ spf_prompt p = 1.
Proof. vm_compute. split_and!; reflexivity. Qed.

(** ** Recommendations *)

(** C6. Whatever the peptide flags, the roughness and the safety
    parameters, the priorities of the recommendations emitted increase
    strictly along the list; every entry carries the fixed priority of its
    category, and no category appears twice. *)
Theorem priorities_strictly_increase
    (pep_flags : gmap string feature_flags) (tr : float) (params : safety_params) :
  let recs := recommendations pep_flags tr params in
  StronglySorted Z.lt (map priority recs)
  ∧ NoDup (map category recs)
  ∧ Forall (λ r, (category r, priority r) ∈ category_priority) recs.
Proof.
  unfold recommendations, append_if.
  destruct (any_over500 pep_flags), (any_charged pep_flags),
    (any_lipidated pep_flags), (8.0 <? tr)%float; cbn; (split; [|split]).
  (* the table lookups are decided, the order and the distinctness are
     built constructor by constructor *)
  all: try (apply bool_decide_unpack; vm_compute; reflexivity).
  all: repeat constructor.
  all: rewrite ?elem_of_cons, elem_of_nil; intuition discriminate.
Qed.

(** C3. The single unknown name "xyz-123": its record is the cautious
    default, any-over-500 is true and any-charged is false, so that
    Microneedle and Vesicular Carrier are emitted and Iontophoresis is
    not, at every roughness and for all safety parameters. *)
Theorem scenario_unknown_peptide (tr : float) (params : safety_params) :
  let pep_flags := Proc.run (flags_from_list "xyz-123") PEPTIDE_KB in
  let cats := map category (recommendations pep_flags tr params) in
  pep_flags = {[ "xyz-123" := mkFlags false (PyStr "unknown") "unknown" false true 600 ]}
  ∧ any_over500 pep_flags = true
  ∧ any_charged pep_flags = false
  ∧ "Microneedle" ∈ cats
  ∧ "Vesicular Carrier" ∈ cats
  ∧ "Iontophoresis" ∉ cats.
Proof.
  cbn zeta.
  assert (Hpf : Proc.run (flags_from_list "xyz-123") PEPTIDE_KB
                = {[ "xyz-123" := mkFlags false (PyStr "unknown") "unknown" false true 600 ]})
    by (vm_compute; reflexivity).
  rewrite Hpf. clear Hpf.
  set (pf := {[ "xyz-123" := mkFlags false (PyStr "unknown") "unknown" false true 600 ]}).
  assert (Hover : any_over500 pf = true) by (vm_compute; reflexivity).
  assert (Hch : any_charged pf = false) by (vm_compute; reflexivity).
  assert (Hlip : any_lipidated pf = false) by (vm_compute; reflexivity).
  split; [reflexivity|]. split; [exact Hover|]. split; [exact Hch|].
  unfold recommendations, append_if. rewrite Hover, Hch, Hlip. clearbody pf.
  destruct (8.0 <? tr)%float; cbn; (split; [|split]).
  all: rewrite ?elem_of_cons, ?elem_of_nil; first [by auto | intuition discriminate].
Qed.

(** C5. The empty peptide list with roughness 9.0: the three aggregates
    are false, and the recommendations are exactly Vesicular Carrier
    (priority 3) followed by Hydration & Occlusion (priority 4). *)
Theorem scenario_no_peptides_rough_skin (params : safety_params) :
  let pep_flags := Proc.run (flags_from_list "") PEPTIDE_KB in
  let recs := recommendations pep_flags 9.0%float params in
  pep_flags = ∅
  ∧ any_over500 pep_flags = false
  ∧ any_charged pep_flags = false
  ∧ any_lipidated pep_flags = false
  ∧ recs = [rec_vesicular; rec_hydration]
  ∧ map (λ r, (category r, priority r)) recs
    = [("Vesicular Carrier", 3); ("Hydration & Occlusion", 4)].
Proof.
  cbn zeta.
  assert (Hpf : Proc.run (flags_from_list "") PEPTIDE_KB = ∅) by (vm_compute; reflexivity).
  rewrite Hpf. clear Hpf.
  assert (Hover : any_over500 ∅ = false) by (vm_compute; reflexivity).
  assert (Hch : any_charged ∅ = false) by (vm_compute; reflexivity).
  assert (Hlip : any_lipidated ∅ = false) by (vm_compute; reflexivity).
  split; [reflexivity|]. split; [exact Hover|]. split; [exact Hch|]. split; [exact Hlip|].
  unfold recommendations, append_if. rewrite Hover, Hch, Hlip.
  change (8.0 <? 9.0)%float with true. cbn. split; reflexivity.
Qed.

(** ** Ranges of the metrics *)

Section FloatOrder.

(** [a < b] gives [a <= b] on binary64 values. *)
Lemma ltb_leb (a b : float) : (a <? b)%float = true → (a <=? b)%float = true.
Proof.
  rewrite ltb_spec, leb_spec. unfold SFltb, SFleb.
  destruct (SFcompare (Prim2SF a) (Prim2SF b)) as [[]|]; congruence.
Qed.


(** A NaN goes through [np.clip] unchanged. *)
Lemma np_clip_nan (x : float) :
  is_nan x = true → PyFloat.np_clip x 0.0%float 100.0%float = x.
Proof. intros Hnan. unfold PyFloat.np_clip. by rewrite Hnan, Hnan. Qed.

(** [max(0.0, min(100.0, base))] lies in [0, 100] for every [base],
    a NaN or an infinity included. *)
Lemma clamp_between (base : float) :
  PyFloat.between 0.0%float 100.0%float
    (PyFloat.max2 0.0%float (PyFloat.min2 100.0%float base)).
Proof.
  unfold PyFloat.max2, PyFloat.min2, PyFloat.between.
  destruct (base <? 100.0)%float eqn:Hhi.
  - destruct (0.0 <? base)%float eqn:Hlo.
    + split; by apply ltb_leb.
    + split; reflexivity.
  - split; reflexivity.
Qed.

Lemma pih_risk_proxy_returns (mi ei : float) (fitz : Z) (k : float) :
  PyFloat.of_int (fitz - 1) = Returns k →
  ∃ r, pih_risk_proxy mi ei fitz = Returns r
       ∧ PyFloat.between 0.0%float 100.0%float r.
Proof.
  intros Hk. unfold pih_risk_proxy. rewrite Hk.
  eexists. split; [reflexivity|apply clamp_between].
Qed.

Lemma all_convert_elem (zs : list Z) (z : Z) :
  all_convert zs = true → z ∈ zs → ∃ k, PyFloat.of_int z = Returns k.
Proof.
  unfold all_convert. rewrite forallb_forall. intros Hall Hz.
  apply list_elem_of_In, Hall in Hz.
  destruct (PyFloat.of_int z) as [k|e]; [by exists k|discriminate Hz].
Qed.

(** The conversion succeeds on the integers around the Fitzpatrick
    scale, by enumeration. *)
Lemma of_int_returns_near_scale (z : Z) :
  -1000 ≤ z ≤ 1000 → ∃ k, PyFloat.of_int z = Returns k.
Proof.
  intros Hz. apply (all_convert_elem (seqZ (-1000) 2001)).
  - vm_compute. reflexivity.
  - apply elem_of_seqZ. lia.
Qed.

(** On and around the Fitzpatrick scale the proxy is returned, in range,
    whatever the two indices are. *)
Lemma pih_risk_proxy_near_scale (mi ei : float) (fitz : Z) :
  -999 ≤ fitz ≤ 1001 →
  ∃ r, pih_risk_proxy mi ei fitz = Returns r
       ∧ PyFloat.between 0.0%float 100.0%float r.
Proof.
  intros Hf. destruct (of_int_returns_near_scale (fitz - 1)) as [k Hk]; [lia|].
  by apply (pih_risk_proxy_returns _ _ _ k).
Qed.

End FloatOrder.

Section MetricRanges.

Variables (lab_lightness_mean erythema_ratio_scaled : raster → float).


End MetricRanges.


(** A NaN handed to [np.clip] comes back as the melanin index, outside
    every interval. *)
Lemma melanin_index_nan (arr : raster) :
  melanin_index_rgb (λ _, nan) arr = (100.0 - nan)%float
  ∧ ¬ PyFloat.between 0.0%float 100.0%float (melanin_index_rgb (λ _, nan) arr).
Proof.
  split; [reflexivity|]. intros [H _]. vm_compute in H. discriminate H.
Qed.


(** ** More on the resolver *)

Section Normalisation.

Implicit Types (c : ascii) (s k : string).

















End Normalisation.




Section ResolverAlgebra.

Implicit Types (kb : gmap string PeptideInfo) (a b csv s k : string).

Lemma run_lookup kb csv k :
  Proc.run (flags_from_list csv) kb !! k
  = if decide (k ∈ peptide_names csv) then Some (entry_for (kb !! k)) else None.
Proof.
  unfold Proc.run. rewrite flags_from_list_run. cbn [fst].
  by rewrite lookup_written, lookup_empty.
Qed.

Lemma run_ext kb a b :
  (∀ k, k ∈ peptide_names a ↔ k ∈ peptide_names b) →
  Proc.run (flags_from_list a) kb = Proc.run (flags_from_list b) kb.
Proof.
  intros Hab. apply map_eq. intros k. rewrite !run_lookup.
  destruct (decide (k ∈ peptide_names a)) as [Ha|Ha].
  - rewrite decide_True; [done|by apply Hab].
  - rewrite decide_False; [done|]. by rewrite <- Hab.
Qed.

End ResolverAlgebra.

(** X2. Only the set of names matters: two inputs with the same names, in
    whatever order and however often repeated, resolve to the same map. *)
Theorem resolver_ignores_order_and_repeats
    (kb : gmap string PeptideInfo) (a b : string) :
  (∀ k, k ∈ peptide_names a ↔ k ∈ peptide_names b) →
  Proc.run (flags_from_list a) kb = Proc.run (flags_from_list b) kb.
Proof.
  apply run_ext.
Qed.

Lemma resolver_ignores_order_and_repeats_witness :
  Proc.run (flags_from_list "td-1, abc ,TD-1") PEPTIDE_KB
  = Proc.run (flags_from_list "ABC,td-1") PEPTIDE_KB.
Proof.
  apply (resolver_ignores_order_and_repeats PEPTIDE_KB "td-1, abc ,TD-1" "ABC,td-1").
  intros k.
  change (peptide_names "td-1, abc ,TD-1") with ["td-1"; "abc"; "td-1"].
  change (peptide_names "ABC,td-1") with ["abc"; "td-1"].
  rewrite !elem_of_cons, !elem_of_nil. tauto.
Defined.

(** ** More on the recommendations *)

Section Aggregates.

Implicit Types (m : gmap string feature_flags) (f : feature_flags → bool).

(** [any(f(p) for p in m.values())] holds exactly when some entry
    satisfies [f]. *)
Lemma existsb_dict_values f m :
  existsb f (dict_values m) = true ↔ ∃ k p, m !! k = Some p ∧ f p = true.
Proof.
  rewrite existsb_exists. unfold dict_values. split.
  - intros (p & Hin & Hf). apply list_elem_of_In, list_elem_of_fmap in Hin.
    destruct Hin as ([k q] & -> & Hkq). apply elem_of_map_to_list in Hkq.
    by exists k, q.
  - intros (k & p & Hk & Hf). exists p. split; [|done].
    apply list_elem_of_In, list_elem_of_fmap. exists (k, p).
    split; [done|]. by apply elem_of_map_to_list.
Qed.

(** The aggregate of a resolver output, in terms of the names. *)
Lemma existsb_resolved f kb csv :
  existsb f (dict_values (Proc.run (flags_from_list csv) kb)) = true
  ↔ ∃ k, k ∈ peptide_names csv ∧ f (entry_for (kb !! k)) = true.
Proof.
  rewrite existsb_dict_values. split.
  - intros (k & p & Hk & Hf). rewrite run_lookup in Hk.
    destruct (decide (k ∈ peptide_names csv)); [|done].
    injection Hk as <-. by exists k.
  - intros (k & Hin & Hf). exists k, (entry_for (kb !! k)).
    by rewrite run_lookup, decide_True.
Qed.

(** A check that holds on the listed entries of a store holds on each of
    its lookups. *)
Lemma store_forall (kb : gmap string PeptideInfo) (P : string → PeptideInfo → bool) :
  forallb (λ e, P e.1 e.2) (map_to_list kb) = true →
  ∀ k info, kb !! k = Some info → P k info = true.
Proof.
  rewrite forallb_forall. intros Hall k info Hk.
  apply (Hall (k, info)), list_elem_of_In, elem_of_map_to_list, Hk.
Qed.

Lemma seed_lipidated_is_large k :
  flag_lipidated (entry_for (PEPTIDE_KB !! k)) = true →
  flag_over_500_Da (entry_for (PEPTIDE_KB !! k)) = true.
Proof.
  destruct (PEPTIDE_KB !! k) as [info|] eqn:Hk; cbn [entry_for]; [|done].
  intros Hl.
  pose proof (store_forall PEPTIDE_KB
    (λ _ i, implb (flag_lipidated (known_flags i)) (flag_over_500_Da (known_flags i)))) as H.
  specialize (H ltac:(vm_compute; reflexivity) k info Hk). cbn beta in H.
  by rewrite Hl in H.
Qed.

End Aggregates.

(** Membership in a list written out, by computation. *)
Ltac by_listing :=
  repeat match goal with
         | H : _ ∈ _ |- _ => apply list_elem_of_In in H; cbn in H
         | |- _ ∈ _ => apply list_elem_of_In; cbn
         end;
  first [tauto | discriminate | intuition discriminate].

Lemma categories_by_guard
    (pep_flags : gmap string feature_flags) (tr : float) (params : safety_params) :
  let cats := map category (recommendations pep_flags tr params) in
  ("Microneedle" ∈ cats ↔ any_over500 pep_flags = true)
  ∧ ("Iontophoresis" ∈ cats ↔ any_charged pep_flags = true)
  ∧ ("Vesicular Carrier" ∈ cats
     ↔ any_over500 pep_flags = true ∨ any_lipidated pep_flags = false)
  ∧ ("Hydration & Occlusion" ∈ cats ↔ (8.0 <? tr)%float = true).
Proof.
  unfold recommendations, append_if.
  destruct (any_over500 pep_flags), (any_charged pep_flags),
    (any_lipidated pep_flags), (8.0 <? tr)%float; cbn.
  all: repeat split; intros; by_listing.
Qed.

(** X3. Which categories are recommended: Microneedle exactly with
    any-over-500, Iontophoresis exactly with any-charged, Vesicular Carrier
    exactly when any-over-500 holds or any-lipidated fails, Hydration &
    Occlusion exactly when the roughness exceeds 8.0, so never on a NaN
    roughness; and Microneedle never comes without Vesicular Carrier. *)
Theorem recommended_categories
    (pep_flags : gmap string feature_flags) (tr : float) (params : safety_params) :
  let cats := map category (recommendations pep_flags tr params) in
  ("Microneedle" ∈ cats ↔ any_over500 pep_flags = true)
  ∧ ("Iontophoresis" ∈ cats ↔ any_charged pep_flags = true)
  ∧ ("Vesicular Carrier" ∈ cats
     ↔ any_over500 pep_flags = true ∨ any_lipidated pep_flags = false)
  ∧ ("Hydration & Occlusion" ∈ cats ↔ (8.0 <? tr)%float = true)
  ∧ ("Microneedle" ∈ cats → "Vesicular Carrier" ∈ cats)
  ∧ "Hydration & Occlusion" ∉ map category (recommendations pep_flags nan params).
Proof.
  cbn zeta.
  destruct (categories_by_guard pep_flags tr params) as (Hmn & Hio & Hves & Hhy).
  destruct (categories_by_guard pep_flags nan params) as (_ & _ & _ & Hnan).
  split_and!; [done|done|done|done| |].
  - rewrite Hmn, Hves. by left.
  - rewrite Hnan. discriminate.
Qed.

(** X4. With the seed knowledge base every lipidated peptide weighs over
    500 Da, so Vesicular Carrier is recommended for every input, and the
    recommendations are never empty. *)
Theorem vesicular_carrier_always_recommended
    (csv : string) (tr : float) (params : safety_params) :
  let recs := recommendations (Proc.run (flags_from_list csv) PEPTIDE_KB) tr params in
  "Vesicular Carrier" ∈ map category recs ∧ recs ≠ [].
Proof.
  cbn zeta.
  assert (Hin : "Vesicular Carrier" ∈ map category
            (recommendations (Proc.run (flags_from_list csv) PEPTIDE_KB) tr params)).
  { destruct (categories_by_guard
                (Proc.run (flags_from_list csv) PEPTIDE_KB) tr params)
      as (_ & _ & Hves & _). apply Hves. clear Hves.
    destruct (any_lipidated (Proc.run (flags_from_list csv) PEPTIDE_KB)) eqn:Hl;
      [left|by right].
    apply existsb_resolved in Hl as (k & Hk & Hl).
    apply existsb_resolved. exists k. split; [done|]. by apply seed_lipidated_is_large. }
  split; [exact Hin|]. intros Hnil. rewrite Hnil in Hin. by apply elem_of_nil in Hin.
Qed.

(** ** More on the numbers *)

Section FloatFacts.

Implicit Types x y a b c : float.

(** [a < b] and [b <= c] give [a < c]. *)
Lemma ltb_leb_trans a b c :
  (a <? b)%float = true → (b <=? c)%float = true → (a <? c)%float = true.
Proof.
  rewrite !ltb_spec, leb_spec. unfold SFltb, SFleb.
  destruct (Prim2SF a) as [sa|sa| |sa ma ea], (Prim2SF b) as [sb|sb| |sb mb eb],
    (Prim2SF c) as [sc|sc| |sc mc ec]; cbn;
    try destruct sa; try destruct sb; try destruct sc; cbn; try done.
  all: change (Pos.compare_cont Eq ?p ?q) with (Pos.compare p q).
  all: destruct (Z.compare_spec ea eb), (Z.compare_spec eb ec), (Z.compare_spec ea ec);
    try done; try lia; subst.
  all: destruct (Pos.compare_spec ma mb), (Pos.compare_spec mb mc),
    (Pos.compare_spec ma mc); cbn; try done; try lia.
Qed.

End FloatFacts.

(** ** More on the safety calibration *)

Section CalibrationTable.

Lemma calibration_table (mi : float) (fitz : Z) (site : string) :
  safety_calibration mi fitz site
  = match pigmentation_guard mi fitz, site_guard site with
    | true, true => ([LOWER_MN; SITE_LIMIT; SPF], mkSafetyParams 0.2%float 1)
    | true, false => ([LOWER_MN; SPF], mkSafetyParams 0.2%float 1)
    | false, true => ([SITE_LIMIT], mkSafetyParams 0.2%float 0)
    | false, false => ([], mkSafetyParams 0.4%float 0)
    end.
Proof.
  unfold safety_calibration, rule_spf, rule_site, rule_pigmentation,
    pigmentation_guard, site_guard.
  destruct ((35.0 <? mi)%float || (4 <=? fitz));
    destruct (String.eqb (Str.lower site) "eye"
              || String.eqb (Str.lower site) "periorbital");
    reflexivity.
Qed.

Lemma pigmentation_guard_mono (mi mi' : float) (fitz fitz' : Z) :
  (mi <=? mi')%float = true → fitz ≤ fitz' →
  pigmentation_guard mi fitz = true → pigmentation_guard mi' fitz' = true.
Proof.
  unfold pigmentation_guard. intros Hmi Hf [H|H]%orb_true_iff; apply orb_true_iff.
  - left. by apply (ltb_leb_trans _ mi).
  - right. apply Z.leb_le. apply Z.leb_le in H. lia.
Qed.

End CalibrationTable.

(** X5. A higher melanin index or Fitzpatrick type never loosens the
    calibration: the ceiling does not rise, the SPF prompt is not withdrawn
    and every flag raised before is still raised. *)
Theorem calibration_tightens_with_pigmentation
    (mi mi' : float) (fitz fitz' : Z) (site : string) :
  (mi <=? mi')%float = true →
  fitz ≤ fitz' →
  let lo := safety_calibration mi fitz site in
  let hi := safety_calibration mi' fitz' site in
  (mn_length_mm hi.2 <=? mn_length_mm lo.2)%float = true
  ∧ spf_prompt lo.2 ≤ spf_prompt hi.2
  ∧ lo.1 ⊆ hi.1.
Proof.
  intros Hmi Hf. cbn zeta. rewrite !calibration_table.
  pose proof (pigmentation_guard_mono mi mi' fitz fitz' Hmi Hf) as Hmono.
  destruct (pigmentation_guard mi fitz), (pigmentation_guard mi' fitz'),
    (site_guard site); try (by discriminate Hmono); cbn.
  all: split_and!; [reflexivity|lia|].
  all: intros f Hin; by_listing.
Qed.

Lemma calibration_tightens_with_pigmentation_witness :
  (mn_length_mm (safety_calibration 50.0%float 5 "forearm").2
   <=? mn_length_mm (safety_calibration 20.0%float 2 "forearm").2)%float = true
  ∧ spf_prompt (safety_calibration 20.0%float 2 "forearm").2
    ≤ spf_prompt (safety_calibration 50.0%float 5 "forearm").2
  ∧ (safety_calibration 20.0%float 2 "forearm").1
    ⊆ (safety_calibration 50.0%float 5 "forearm").1.
Proof.
  apply (calibration_tightens_with_pigmentation 20.0%float 50.0%float 2 5 "forearm").
  - reflexivity.
  - lia.
Defined.

(** ** More on the endpoint *)

Section EndpointOutcome.

Variables (lab_lightness_mean erythema_ratio_scaled : raster → float).
Variables (texture_roughness brightness_mean : raster → float).
Variable round2 : float → float.


End EndpointOutcome.
